(** * Hephaestus: the DynamoDB query core (aws/dynamodb.go)

    A shallow embedding of [Query], [buildFilterExpression] and
    [buildSingleCondition], together with the part of the AWS SDK that
    [Query] drives: the expression builder's [Build] (kept as a parameter)
    and the [QueryPaginator] loop (written out as the SDK implements it);
    then the configuration glue: [config.Load] over viper's lookup order
    and [aws.load]'s effect on the environment. *)

From Stdlib Require Import String List ZArith Bool Lia.
From Stdlib Require Import DecimalString.
Import ListNotations.

Local Open Scope string_scope.
Local Set Warnings "-register-all".

(** ** Go values *)

(** The dynamic values a field of type [any] can hold; [None] is Go's
    [nil] interface value. *)
Inductive GoValue :=
| GoString (s : string)
| GoInt (z : Z)
| GoBool (b : bool).

Definition any := option GoValue.

(** [x != nil] *)
Definition isSome {A : Type} (o : option A) : bool :=
  match o with Some _ => true | None => false end.

(** [fmt.Sprint] on an [any]. *)
Definition Sprint (v : any) : string :=
  match v with
  | None => "<nil>"
  | Some (GoString s) => s
  | Some (GoInt z) => NilZero.string_of_int (Z.to_int z)
  | Some (GoBool true) => "true"
  | Some (GoBool false) => "false"
  end.

(** [var defaultLimit = 100]: declared in the package, read nowhere. *)
Definition defaultLimit : Z := 100.

(** ** Operators: string types with named constants *)

Definition LogicalOperator := string.
Definition AND : LogicalOperator := "AND".
Definition OR : LogicalOperator := "OR".

Definition WhereOperator := string.
Definition Equal : WhereOperator := "=".
Definition NotEqual : WhereOperator := "!=".
Definition LessThan : WhereOperator := "<".
Definition LessThanEqual : WhereOperator := "<=".
Definition GreaterThan : WhereOperator := ">".
Definition GreaterThanEqual : WhereOperator := ">=".
Definition Between : WhereOperator := "BETWEEN".
Definition In : WhereOperator := "IN".
Definition Contains : WhereOperator := "CONTAINS".
Definition BeginsWith : WhereOperator := "BEGINS_WITH".
Definition AttributeExists : WhereOperator := "EXISTS".
Definition AttributeNotExists : WhereOperator := "NOT_EXISTS".

(** ** The structs of the package *)

Module QueryKeyValue.
Record t := mk {
  Key : string;
  Value : any;
  Operator : WhereOperator
}.
End QueryKeyValue.

Module WhereCondition.
Record t := mk {
  Field : string;
  Operator : WhereOperator;
  Value : any;
  (** For BETWEEN operator, this holds the upper bound *)
  Value2 : any;
  (** For IN operator, this should be a slice *)
  Values : list any
}.
End WhereCondition.

Module Where.
Inductive t := mk {
  Conditions : list WhereCondition.t;
  Groups : list t;
  Operator : LogicalOperator
}.
End Where.

Module QueryOptions.
Record t := mk {
  Table : string;
  Index : string;
  Limit : Z;
  Cursor : string;
  Partition : option QueryKeyValue.t;
  Sort : option QueryKeyValue.t;
  Where : option Where.t
}.
End QueryOptions.

(** ** The SDK's condition builders

    [expression.ConditionBuilder] and [expression.KeyConditionBuilder] as
    syntax trees: [Name(f).Equal(Value(v))] is [CondEqual f v];
    [c.And(d)] builds the two-element AND node [CondAnd c d]. *)

Inductive ConditionBuilder :=
| CondEqual (name : string) (v : any)
| CondNotEqual (name : string) (v : any)
| CondLessThan (name : string) (v : any)
| CondLessThanEqual (name : string) (v : any)
| CondGreaterThan (name : string) (v : any)
| CondGreaterThanEqual (name : string) (v : any)
| CondBetween (name : string) (lower upper : any)
| CondIn (name : string) (first : any) (rest : list any)
| CondContains (name : string) (substr : string)
| CondBeginsWith (name : string) (prefix : string)
| CondAttributeExists (name : string)
| CondAttributeNotExists (name : string)
| CondAnd (l r : ConditionBuilder)
| CondOr (l r : ConditionBuilder).

Inductive KeyConditionBuilder :=
| KeyEqual (key : string) (v : any)
| KeyAnd (l r : KeyConditionBuilder).

(** Go's [(value, error)] results. *)
Inductive Result (A E : Type) :=
| ROk (a : A)
| RErr (e : E).
Arguments ROk {A E} a.
Arguments RErr {A E} e.

(** The errors [buildFilterExpression] and [buildSingleCondition] return. *)
Inductive FilterError :=
| ErrNoConditions                    (* "no conditions provided" *)
| ErrInRequiresValues                (* "IN operator requires non-empty Values slice" *)
| ErrUnsupportedOperator (op : WhereOperator). (* "unsupported operator: %s" *)

(** ** buildSingleCondition *)

Definition buildSingleCondition (cond : WhereCondition.t)
  : Result ConditionBuilder FilterError :=
  let name := WhereCondition.Field cond in
  let op := WhereCondition.Operator cond in
  let v := WhereCondition.Value cond in
  if String.eqb op Equal then ROk (CondEqual name v)
  else if String.eqb op NotEqual then ROk (CondNotEqual name v)
  else if String.eqb op LessThan then ROk (CondLessThan name v)
  else if String.eqb op LessThanEqual then ROk (CondLessThanEqual name v)
  else if String.eqb op GreaterThan then ROk (CondGreaterThan name v)
  else if String.eqb op GreaterThanEqual then ROk (CondGreaterThanEqual name v)
  else if String.eqb op Between then
    ROk (CondBetween name v (WhereCondition.Value2 cond))
  else if String.eqb op In then
    match WhereCondition.Values cond with
    | [] => RErr ErrInRequiresValues
    | first :: additional => ROk (CondIn name first additional)
    end
  else if String.eqb op Contains then ROk (CondContains name (Sprint v))
  else if String.eqb op BeginsWith then ROk (CondBeginsWith name (Sprint v))
  else if String.eqb op AttributeExists then ROk (CondAttributeExists name)
  else if String.eqb op AttributeNotExists then ROk (CondAttributeNotExists name)
  else RErr (ErrUnsupportedOperator op).

(** ** buildFilterExpression *)

(** The loop over [where.Conditions]: the first failing condition aborts. *)
Fixpoint buildConditions (cs : list WhereCondition.t)
  : Result (list ConditionBuilder) FilterError :=
  match cs with
  | [] => ROk []
  | c :: cs' =>
      match buildSingleCondition c with
      | RErr e => RErr e
      | ROk cond =>
          match buildConditions cs' with
          | RErr e => RErr e
          | ROk conds => ROk (cond :: conds)
          end
      end
  end.

(** One step of the combining loop: AND when the operator is empty or
    [AND], OR otherwise. *)
Definition combine (op : LogicalOperator) (result c : ConditionBuilder)
  : ConditionBuilder :=
  if String.eqb op "" || String.eqb op AND then CondAnd result c
  else CondOr result c.

Fixpoint buildFilterExpression (w : Where.t)
  : Result ConditionBuilder FilterError :=
  let fix buildGroups (gs : list Where.t)
      : Result (list ConditionBuilder) FilterError :=
    match gs with
    | [] => ROk []
    | g :: gs' =>
        match buildFilterExpression g with
        | RErr e => RErr e
        | ROk nestedCond =>
            match buildGroups gs' with
            | RErr e => RErr e
            | ROk nested => ROk (nestedCond :: nested)
            end
        end
    end in
  match buildConditions (Where.Conditions w) with
  | RErr e => RErr e
  | ROk leafs =>
      match buildGroups (Where.Groups w) with
      | RErr e => RErr e
      | ROk nested =>
          match (leafs ++ nested)%list with
          | [] => RErr ErrNoConditions
          | first :: rest =>
              ROk (fold_left (combine (Where.Operator w)) rest first)
          end
      end
  end.

(** ** Query *)

(** The errors [Query] returns: the package's sentinel errors, the
    sort-key error built with [fmt.Errorf], and the error of the SDK's
    [Build], passed through unchanged. *)
Inductive QueryError :=
| DynamoDBErrTableNotSet
| DynamoDBErrIndexNotSet
| DynamoDBErrPartitionNotSet
| ErrUnsupportedSortKeyOperator (op : WhereOperator) (* "unsupported sort key operator: %s" *)
| DynamoDBErrBuildFilterExpression
| ErrBuild (msg : string)
| DynamoDBErrQuery.

(** [dynamodb.QueryInput], with the fields [Query] sets.  The key and
    filter conditions are kept as the builder trees they are rendered from;
    the placeholder maps [ExpressionAttributeNames]/[Values] and the
    projection are that rendering and are left out.  [Token] is the type
    of [LastEvaluatedKey]/[ExclusiveStartKey]. *)
Module QueryInput.
Record t (Token : Type) := mk {
  TableName : string;
  IndexName : string;
  KeyConditionExpression : KeyConditionBuilder;
  FilterExpression : option ConditionBuilder;
  Limit : option Z;
  ExclusiveStartKey : option Token
}.
Arguments mk {Token}.
Arguments TableName {Token}.
Arguments IndexName {Token}.
Arguments KeyConditionExpression {Token}.
Arguments FilterExpression {Token}.
Arguments Limit {Token}.
Arguments ExclusiveStartKey {Token}.
End QueryInput.

(** [opts.Partition == nil || opts.Partition.Key == "" || opts.Partition.Value == nil] *)
Definition partitionNotSet (p : option QueryKeyValue.t) : bool :=
  match p with
  | None => true
  | Some kv =>
      String.eqb (QueryKeyValue.Key kv) "" || negb (isSome (QueryKeyValue.Value kv))
  end.

(** Lines 103-126 of [Query]: validation, then the key condition
    [keyEx] for the partition key and, when set, the sort key. *)
Definition queryKeyCondition (opts : QueryOptions.t)
  : Result KeyConditionBuilder QueryError :=
  if String.eqb (QueryOptions.Table opts) "" then RErr DynamoDBErrTableNotSet
  else if String.eqb (QueryOptions.Index opts) "" then RErr DynamoDBErrIndexNotSet
  else
    match QueryOptions.Partition opts with
    | None => RErr DynamoDBErrPartitionNotSet
    | Some p =>
        if String.eqb (QueryKeyValue.Key p) "" || negb (isSome (QueryKeyValue.Value p))
        then RErr DynamoDBErrPartitionNotSet
        else
          let keyEx := KeyEqual (QueryKeyValue.Key p) (QueryKeyValue.Value p) in
          match QueryOptions.Sort opts with
          | Some s =>
              if negb (String.eqb (QueryKeyValue.Key s) "")
                 && isSome (QueryKeyValue.Value s) then
                if String.eqb (QueryKeyValue.Operator s) Equal then
                  ROk (KeyAnd keyEx (KeyEqual (QueryKeyValue.Key s) (QueryKeyValue.Value s)))
                else RErr (ErrUnsupportedSortKeyOperator (QueryKeyValue.Operator s))
              else ROk keyEx
          | None => ROk keyEx
          end
    end.

(** Lines 128-137: the optional filter; a compile failure is replaced by
    the sentinel [DynamoDBErrBuildFilterExpression]. *)
Definition queryFilter (opts : QueryOptions.t)
  : Result (option ConditionBuilder) QueryError :=
  match QueryOptions.Where opts with
  | None => ROk None
  | Some w =>
      match buildFilterExpression w with
      | RErr _ => RErr DynamoDBErrBuildFilterExpression
      | ROk filterExpr => ROk (Some filterExpr)
      end
  end.

(** Lines 103-157: the query input.  [build] is the SDK's
    [expression.Builder.Build] on the key condition and the optional
    filter; [Some msg] is its error.  (The JSON dump of the input that
    follows is printing only.) *)
Definition buildQueryInput {Token : Type}
  (build : KeyConditionBuilder -> option ConditionBuilder -> option string)
  (opts : QueryOptions.t) : Result (QueryInput.t Token) QueryError :=
  match queryKeyCondition opts with
  | RErr e => RErr e
  | ROk keyEx =>
      match queryFilter opts with
      | RErr e => RErr e
      | ROk filter =>
          match build keyEx filter with
          | Some msg => RErr (ErrBuild msg)
          | None =>
              ROk (QueryInput.mk (QueryOptions.Table opts) (QueryOptions.Index opts)
                     keyEx filter (Some (QueryOptions.Limit opts)) None)
          end
      end
  end.

(** The SDK's [dynamodb.QueryPaginator]: [NewQueryPaginator] takes its
    limit and first token from the input; [NextPage] sends the input with
    [ExclusiveStartKey := nextToken] and a limit only when it is
    positive, and on success clears [firstPage] and keeps the page's
    [LastEvaluatedKey] as [nextToken]. *)
Module QueryPaginator.
Record t (Token : Type) := mk {
  params : QueryInput.t Token;
  limit : Z;
  firstPage : bool;
  nextToken : option Token
}.
Arguments mk {Token}.
Arguments params {Token}.
Arguments limit {Token}.
Arguments firstPage {Token}.
Arguments nextToken {Token}.

Definition New {Token : Type} (input : QueryInput.t Token) : t Token :=
  mk input
     (match QueryInput.Limit input with Some l => l | None => 0%Z end)
     true (QueryInput.ExclusiveStartKey input).

Definition HasMorePages {Token : Type} (p : t Token) : bool :=
  firstPage p || isSome (nextToken p).

Definition pageParams {Token : Type} (p : t Token) : QueryInput.t Token :=
  let i := params p in
  QueryInput.mk (QueryInput.TableName i) (QueryInput.IndexName i)
    (QueryInput.KeyConditionExpression i) (QueryInput.FilterExpression i)
    (if (0 <? limit p)%Z then Some (limit p) else None)
    (nextToken p).

Definition afterPage {Token : Type} (p : t Token) (lastEvaluatedKey : option Token)
  : t Token :=
  mk (params p) (limit p) false lastEvaluatedKey.
End QueryPaginator.

(** What the client's [Query] call returns for one page. *)
Inductive FetchResult (Item Token BackendError : Type) :=
| FetchOk (items : list Item) (lastEvaluatedKey : option Token)
| FetchErr (e : BackendError).
Arguments FetchOk {Item Token BackendError} items lastEvaluatedKey.
Arguments FetchErr {Item Token BackendError} e.

Section Query.
Context {Item Token BackendError : Type}.

(** The SDK's [Build]. *)
Variable build : KeyConditionBuilder -> option ConditionBuilder -> option string.

(** The backend: the [k]-th page request, made while the context is
    done or not, with the page's parameters. *)
Variable fetch : nat -> bool -> QueryInput.t Token -> FetchResult Item Token BackendError.

(** The caller's context: whether it is done when the [k]-th page
    request is made. *)
Variable ctx : nat -> bool.

(** Lines 168-178: [for queryPaginator.HasMorePages() { ... }].  The
    result is [(items, err, fetched)] with [fetched] the page requests
    made, in order; [None] when [fuel] runs out first. *)
Fixpoint paginate (fuel : nat) (p : QueryPaginator.t Token) (k : nat)
  (items : list Item) (fetched : list (QueryInput.t Token))
  : option (list Item * option QueryError * list (QueryInput.t Token)) :=
  match fuel with
  | O => None
  | S fuel' =>
      if QueryPaginator.HasMorePages p then
        let req := QueryPaginator.pageParams p in
        match fetch k (ctx k) req with
        | FetchErr _ => Some ([], Some DynamoDBErrQuery, (fetched ++ [req])%list)
        | FetchOk page lek =>
            paginate fuel' (QueryPaginator.afterPage p lek) (S k)
              (items ++ page)%list (fetched ++ [req])%list
        end
      else Some (items, None, fetched)
  end.

Definition Query (fuel : nat) (opts : QueryOptions.t)
  : option (list Item * option QueryError * list (QueryInput.t Token)) :=
  match buildQueryInput build opts with
  | RErr e => Some ([], Some e, [])
  | ROk input => paginate fuel (QueryPaginator.New input) 0 [] []
  end.
End Query.

(** ** Helpers used in statements *)

(** The loop over [where.Groups], as a function of its own. *)
Fixpoint buildGroups (gs : list Where.t) : Result (list ConditionBuilder) FilterError :=
  match gs with
  | [] => ROk []
  | g :: gs' =>
      match buildFilterExpression g with
      | RErr e => RErr e
      | ROk nestedCond =>
          match buildGroups gs' with
          | RErr e => RErr e
          | ROk nested => ROk (nestedCond :: nested)
          end
      end
  end.

Definition withSort (s : option QueryKeyValue.t) (opts : QueryOptions.t) : QueryOptions.t :=
  QueryOptions.mk (QueryOptions.Table opts) (QueryOptions.Index opts)
    (QueryOptions.Limit opts) (QueryOptions.Cursor opts)
    (QueryOptions.Partition opts) s (QueryOptions.Where opts).

Definition withCursor (c : string) (opts : QueryOptions.t) : QueryOptions.t :=
  QueryOptions.mk (QueryOptions.Table opts) (QueryOptions.Index opts)
    (QueryOptions.Limit opts) c
    (QueryOptions.Partition opts) (QueryOptions.Sort opts) (QueryOptions.Where opts).

Definition withWhere (w : option Where.t) (opts : QueryOptions.t) : QueryOptions.t :=
  QueryOptions.mk (QueryOptions.Table opts) (QueryOptions.Index opts)
    (QueryOptions.Limit opts) (QueryOptions.Cursor opts)
    (QueryOptions.Partition opts) (QueryOptions.Sort opts) w.

Definition withLimit (l : Z) (opts : QueryOptions.t) : QueryOptions.t :=
  QueryOptions.mk (QueryOptions.Table opts) (QueryOptions.Index opts)
    l (QueryOptions.Cursor opts)
    (QueryOptions.Partition opts) (QueryOptions.Sort opts) (QueryOptions.Where opts).

Definition isFetchErr {Item Token BackendError : Type}
  (r : FetchResult Item Token BackendError) : bool :=
  match r with FetchErr _ => true | FetchOk _ _ => false end.

(** ** Measures and projections used by the further properties *)

(** The twelve operators [buildSingleCondition] has a case for. *)
Definition knownOperators : list WhereOperator :=
  [Equal; NotEqual; LessThan; LessThanEqual; GreaterThan; GreaterThanEqual;
   Between; In; Contains; BeginsWith; AttributeExists; AttributeNotExists].



(** The items and the [LastEvaluatedKey] of one page response. *)
Definition pageItems {Item Token BackendError : Type}
  (r : FetchResult Item Token BackendError) : list Item :=
  match r with FetchOk items _ => items | FetchErr _ => [] end.

Definition pageKey {Item Token BackendError : Type}
  (r : FetchResult Item Token BackendError) : option Token :=
  match r with FetchOk _ lek => lek | FetchErr _ => None end.

(** The items of the responses to the requests [reqs], the first one being
    the [k]-th request made, in request order. *)
Fixpoint itemsFrom {Item Token BackendError : Type}
  (fetch : nat -> bool -> QueryInput.t Token -> FetchResult Item Token BackendError)
  (ctx : nat -> bool) (k : nat) (reqs : list (QueryInput.t Token)) : list Item :=
  match reqs with
  | [] => []
  | req :: reqs' => (pageItems (fetch k (ctx k) req) ++ itemsFrom fetch ctx (S k) reqs')%list
  end.

(** ** Configuration (config/config.go and aws/config.go) *)

Module AppConfig.
Record t := mk {
  App : string;
  Env : string
}.
End AppConfig.

(** [aws.Config] *)
Module AwsConfig.
Record t := mk {
  Profile : string;
  Region : string
}.
End AwsConfig.

(** [config.Config] *)
Module Config.
Record t := mk {
  App : AppConfig.t;
  AWS : AwsConfig.t
}.
End Config.










(** ** Concrete inputs *)

Definition yearKey : QueryKeyValue.t := QueryKeyValue.mk "year" (Some (GoInt 2020)) "".

Definition movieOpts : QueryOptions.t :=
  QueryOptions.mk "movies" "YearGenreIndex" 25 "" (Some yearKey) None None.

Definition buildOk : KeyConditionBuilder -> option ConditionBuilder -> option string :=
  fun _ _ => None.

(** A backend with three pages of 3, 3 and 2 items; the continuation
    tokens are the page numbers. *)
Definition threePages (k : nat) (done : bool) (req : QueryInput.t nat)
  : FetchResult nat nat string :=
  match QueryInput.ExclusiveStartKey req with
  | None => FetchOk [1; 2; 3] (Some 1)
  | Some 1 => FetchOk [4; 5; 6] (Some 2)
  | Some _ => FetchOk [7; 8] None
  end.

(** The same backend, failing every request made once the context is done. *)
Definition threePagesCtx (k : nat) (done : bool) (req : QueryInput.t nat)
  : FetchResult nat nat string :=
  if done then FetchErr "context canceled" else threePages k done req.

(** The same backend, failing the request for the second page. *)
Definition failingSecond (k : nat) (done : bool) (req : QueryInput.t nat)
  : FetchResult nat nat string :=
  match QueryInput.ExclusiveStartKey req with
  | Some 1 => FetchErr "InternalServerError"
  | _ => threePages k done req
  end.

(** The page requests of [movieOpts]. *)
Definition movieReq (start : option nat) : QueryInput.t nat :=
  QueryInput.mk "movies" "YearGenreIndex" (KeyEqual "year" (Some (GoInt 2020)))
    None (Some 25%Z) start.

(** Cancelled after the first page. *)
Definition cancelAfterFirst (k : nat) : bool := Nat.leb 1 k.

Definition condA : WhereCondition.t :=
  WhereCondition.mk "genre" Equal (Some (GoString "Comedy")) None [].
Definition condB : WhereCondition.t :=
  WhereCondition.mk "genre" Equal (Some (GoString "Drama")) None [].
Definition condC : WhereCondition.t :=
  WhereCondition.mk "rating" GreaterThan (Some (GoInt 7)) None [].

(** [Where{Groups:[{Conditions:[A,B], Operator:OR}], Conditions:[C], Operator:AND}] *)
Definition groupedWhere : Where.t :=
  Where.mk [condC] [Where.mk [condA; condB] [] OR] AND.

(** A condition with an operator the compiler does not know. *)
Definition likeWhere : Where.t :=
  Where.mk [WhereCondition.mk "title" "LIKE" (Some (GoString "War%")) None []] [] AND.

(** ** Lemmas on the filter compiler *)

Lemma buildFilterExpression_unfold (w : Where.t) :
  buildFilterExpression w =
  match buildConditions (Where.Conditions w) with
  | RErr e => RErr e
  | ROk leafs =>
      match buildGroups (Where.Groups w) with
      | RErr e => RErr e
      | ROk nested =>
          match (leafs ++ nested)%list with
          | [] => RErr ErrNoConditions
          | first :: rest => ROk (fold_left (combine (Where.Operator w)) rest first)
          end
      end
  end.
Proof. destruct w; reflexivity. Qed.

Lemma buildConditions_Forall2 (cs : list WhereCondition.t) (leafs : list ConditionBuilder) :
  Forall2 (fun c l => buildSingleCondition c = ROk l) cs leafs ->
  buildConditions cs = ROk leafs.
Proof.
  induction 1 as [|c l cs' ls' Hc _ IH]; [reflexivity|].
  simpl. rewrite Hc, IH. reflexivity.
Qed.

Lemma buildGroups_Forall2 (gs : list Where.t) (nested : list ConditionBuilder) :
  Forall2 (fun g n => buildFilterExpression g = ROk n) gs nested ->
  buildGroups gs = ROk nested.
Proof.
  induction 1 as [|g n gs' ns' Hg _ IH]; [reflexivity|].
  simpl. rewrite Hg, IH. reflexivity.
Qed.

Lemma combine_other (op : LogicalOperator) :
  op <> "" -> op <> AND -> combine op = combine OR.
Proof.
  intros H1 H2. unfold combine.
  apply String.eqb_neq in H1. apply String.eqb_neq in H2.
  rewrite H1, H2. reflexivity.
Qed.

(** ** Lemmas on [Query] *)

Lemma query_validation_error {Item Token BackendError : Type}
  build (fetch : nat -> bool -> QueryInput.t Token -> FetchResult Item Token BackendError)
  ctx fuel opts e :
  queryKeyCondition opts = RErr e ->
  Query build fetch ctx fuel opts = Some ([], Some e, []).
Proof. intros H. unfold Query, buildQueryInput. rewrite H. reflexivity. Qed.

Section PaginateFacts.
Context {Item Token BackendError : Type}.
Variable build : KeyConditionBuilder -> option ConditionBuilder -> option string.
Variable fetch : nat -> bool -> QueryInput.t Token -> FetchResult Item Token BackendError.
Variable ctx : nat -> bool.

(** The loop only appends page requests, and a request whose fetch
    failed is the last one made, with nil items and [DynamoDBErrQuery]. *)
Lemma paginate_failed_fetch_last (fuel : nat) :
  forall p k items fetched items' err fetched',
    paginate fetch ctx fuel p k items fetched = Some (items', err, fetched') ->
    exists suffix,
      fetched' = (fetched ++ suffix)%list /\
      forall j req,
        nth_error suffix j = Some req ->
        isFetchErr (fetch (k + j) (ctx (k + j)) req) = true ->
        items' = [] /\ err = Some DynamoDBErrQuery /\ S j = length suffix.
Proof.
  induction fuel as [|fuel IH]; intros p k items fetched items' err fetched' Hrun;
    simpl in Hrun; [discriminate|].
  destruct (QueryPaginator.HasMorePages p).
  - destruct (fetch k (ctx k) (QueryPaginator.pageParams p)) as [page lek|be] eqn:Hf.
    + destruct (IH _ _ _ _ _ _ _ Hrun) as [suffix [Heq Hsuf]].
      exists (QueryPaginator.pageParams p :: suffix). split.
      * rewrite Heq, <- app_assoc. reflexivity.
      * intros [|j] req Hnth Herr.
        -- simpl in Hnth. injection Hnth as <-.
           rewrite Nat.add_0_r, Hf in Herr. discriminate.
        -- simpl in Hnth. rewrite Nat.add_succ_r in Herr.
           destruct (Hsuf j req Hnth Herr) as [H1 [H2 H3]].
           simpl. auto.
    + injection Hrun as <- <- <-.
      exists [QueryPaginator.pageParams p]. split; [reflexivity|].
      intros [|j] req Hnth _; [auto|].
      destruct j; discriminate.
  - injection Hrun as <- <- <-.
    exists []. split; [symmetry; apply app_nil_r|].
    intros [|j] req Hnth; discriminate.
Qed.

(** The loop reads the context only where it hands it to a fetch. *)
Lemma paginate_ctx_in_fetch (fuel : nat) :
  forall p k items fetched,
    paginate fetch ctx fuel p k items fetched =
    paginate (fun k' _ req => fetch k' (ctx k') req) (fun _ => false) fuel p k items fetched.
Proof.
  induction fuel as [|fuel IH]; intros p k items fetched; [reflexivity|].
  simpl. destruct (QueryPaginator.HasMorePages p); [|reflexivity].
  destruct (fetch k (ctx k) (QueryPaginator.pageParams p)); [apply IH|reflexivity].
Qed.

Lemma Query_failed_fetch_last (fuel : nat) (opts : QueryOptions.t) :
  forall items err fetched i req,
    Query build fetch ctx fuel opts = Some (items, err, fetched) ->
    nth_error fetched i = Some req ->
    isFetchErr (fetch i (ctx i) req) = true ->
    items = [] /\ err = Some DynamoDBErrQuery /\ S i = length fetched.
Proof.
  intros items err fetched i req Hrun Hnth Herr.
  unfold Query in Hrun.
  destruct (buildQueryInput build opts) as [input|e].
  - destruct (paginate_failed_fetch_last _ _ _ _ _ _ _ _ Hrun) as [suffix [-> Hsuf]].
    exact (Hsuf i req Hnth Herr).
  - injection Hrun as _ _ <-. destruct i; discriminate.
Qed.
End PaginateFacts.

Lemma buildQueryInput_limit {Token : Type} build opts (input : QueryInput.t Token) :
  buildQueryInput build opts = ROk input ->
  QueryInput.Limit input = Some (QueryOptions.Limit opts).
Proof.
  unfold buildQueryInput.
  destruct (queryKeyCondition opts); [|discriminate].
  destruct (queryFilter opts); [|discriminate].
  destruct (build _ _); [discriminate|].
  intros H. injection H as <-. reflexivity.
Qed.

Lemma buildQueryInput_cursor {Token : Type} build opts c :
  @buildQueryInput Token build (withCursor c opts) = buildQueryInput build opts.
Proof. destruct opts; reflexivity. Qed.

(** ** The claims *)

(** C1 (the page size): the input [Query] assembles carries [opts.Limit]
    as it is; with [Limit] zero it carries 0, not [defaultLimit] (100),
    and the paginator then sends the first page request with no limit. *)
Lemma query_limit_zero_not_defaulted :
  buildQueryInput (Token := nat) buildOk (withLimit 0 movieOpts) =
    ROk (QueryInput.mk "movies" "YearGenreIndex"
           (KeyEqual "year" (Some (GoInt 2020))) None (Some 0%Z) None)
  /\ Some 0%Z <> Some defaultLimit
  /\ match Query buildOk threePages (fun _ => false) 10 (withLimit 0 movieOpts) with
     | Some (_, _, req :: _) => QueryInput.Limit req = None
     | _ => False
     end.
Proof.
  split; [reflexivity|]. split; [discriminate|]. reflexivity.
Qed.

(** C2 (the cursor): [Query] never reads [opts.Cursor]: its result does
    not depend on it, and with a non-empty cursor the first page request
    still has no [ExclusiveStartKey]. *)
Lemma query_cursor_not_used :
  (forall (Item Token BackendError : Type) build
     (fetch : nat -> bool -> QueryInput.t Token -> FetchResult Item Token BackendError)
     ctx fuel opts c,
     Query build fetch ctx fuel (withCursor c opts) = Query build fetch ctx fuel opts)
  /\ QueryOptions.Cursor (withCursor "eyJ5ZWFyIjoyMDIwfQ==" movieOpts) <> ""
  /\ match Query buildOk threePages (fun _ => false) 10
             (withCursor "eyJ5ZWFyIjoyMDIwfQ==" movieOpts) with
     | Some (_, _, req :: _) => QueryInput.ExclusiveStartKey req = None
     | _ => False
     end.
Proof.
  split; [|split; [discriminate|reflexivity]].
  intros. unfold Query. rewrite buildQueryInput_cursor. reflexivity.
Qed.

(** C3 (BETWEEN bounds): a BETWEEN condition always compiles, to a range
    over [Value] and [Value2] as they are, nil or not; no error is
    returned for a missing bound. *)
Lemma buildSingleCondition_between_no_bound_check :
  forall field v v2 vs,
    buildSingleCondition (WhereCondition.mk field Between v v2 vs)
    = ROk (CondBetween field v v2).
Proof. reflexivity. Qed.

(** C4 (cancellation), counterexample: the context is cancelled after the
    first page; [Query] still makes the second page request, made while
    the context is done, and returns [DynamoDBErrQuery]. *)
Lemma query_cancel_still_fetches :
  match Query buildOk threePagesCtx cancelAfterFirst 10 movieOpts with
  | Some (items, err, fetched) =>
      length fetched = 2 /\ cancelAfterFirst 1 = true
      /\ items = [] /\ err = Some DynamoDBErrQuery
  | None => False
  end.
Proof. vm_compute. auto. Qed.

(** C4 (cancellation), as the code has it: [Query] makes no cancellation
    check of its own; the context only reaches the page fetches.  A fetch
    made while the context is done is still made, and when it fails
    [Query] returns [DynamoDBErrQuery] with nil items and makes no
    further request. *)
Theorem query_context_only_in_fetch :
  forall (Item Token BackendError : Type) build
    (fetch : nat -> bool -> QueryInput.t Token -> FetchResult Item Token BackendError)
    ctx fuel opts,
    Query build fetch ctx fuel opts
    = Query build (fun k _ req => fetch k (ctx k) req) (fun _ => false) fuel opts
    /\ forall items err fetched i req,
         Query build fetch ctx fuel opts = Some (items, err, fetched) ->
         nth_error fetched i = Some req ->
         ctx i = true ->
         isFetchErr (fetch i true req) = true ->
         items = [] /\ err = Some DynamoDBErrQuery /\ S i = length fetched.
Proof.
  intros Item Token BackendError build fetch ctx fuel opts. split.
  - unfold Query. destruct (buildQueryInput build opts); [|reflexivity].
    apply paginate_ctx_in_fetch.
  - intros items err fetched i req Hrun Hnth Hctx Herr.
    assert (Herr' : isFetchErr (fetch i (ctx i) req) = true) by (rewrite Hctx; exact Herr).
    exact (Query_failed_fetch_last build fetch ctx fuel opts _ _ _ _ _ Hrun Hnth Herr').
Qed.

Lemma query_context_only_in_fetch_witness :
  Query buildOk threePagesCtx cancelAfterFirst 10 movieOpts
    = Some ([], Some DynamoDBErrQuery, [movieReq None; movieReq (Some 1)])
  /\ nth_error [movieReq None; movieReq (Some 1)] 1 = Some (movieReq (Some 1))
  /\ cancelAfterFirst 1 = true
  /\ isFetchErr (threePagesCtx 1 true (movieReq (Some 1))) = true
  /\ ([] : list nat) = [] /\ Some DynamoDBErrQuery = Some DynamoDBErrQuery
  /\ 2 = length [movieReq None; movieReq (Some 1)].
Proof.
  assert (Hrun : Query buildOk threePagesCtx cancelAfterFirst 10 movieOpts
                 = Some ([], Some DynamoDBErrQuery, [movieReq None; movieReq (Some 1)]))
    by (vm_compute; reflexivity).
  split; [exact Hrun|]. split; [reflexivity|]. split; [reflexivity|]. split; [reflexivity|].
  exact (proj2 (query_context_only_in_fetch nat nat string buildOk threePagesCtx
                  cancelAfterFirst 10 movieOpts) _ _ _ 1 _ Hrun eq_refl eq_refl eq_refl).
Defined.

(** C5 (filter failures), counterexample: two different compile errors,
    an empty clause and an unsupported operator, give the same result of
    [Query]: the sentinel, with nothing of the underlying error. *)
Lemma query_filter_error_not_recoverable :
  buildFilterExpression (Where.mk [] [] AND) = RErr ErrNoConditions
  /\ buildFilterExpression likeWhere = RErr (ErrUnsupportedOperator "LIKE")
  /\ Query buildOk threePages (fun _ => false) 10 (withWhere (Some (Where.mk [] [] AND)) movieOpts)
     = Query buildOk threePages (fun _ => false) 10 (withWhere (Some likeWhere) movieOpts)
  /\ Query buildOk threePages (fun _ => false) 10 (withWhere (Some likeWhere) movieOpts)
     = Some ([], Some DynamoDBErrBuildFilterExpression, []).
Proof. repeat split; reflexivity. Qed.

(** C5 (filter failures), as the code has it: once validation and the key
    condition succeed, a [Where] that fails to compile makes [Query] return
    the sentinel [DynamoDBErrBuildFilterExpression] itself, whatever the
    compile error, with nil items and no page request. *)
Theorem query_filter_failure_sentinel :
  forall (Item Token BackendError : Type) build
    (fetch : nat -> bool -> QueryInput.t Token -> FetchResult Item Token BackendError)
    ctx fuel opts keyEx w e,
    queryKeyCondition opts = ROk keyEx ->
    QueryOptions.Where opts = Some w ->
    buildFilterExpression w = RErr e ->
    Query build fetch ctx fuel opts = Some ([], Some DynamoDBErrBuildFilterExpression, []).
Proof.
  intros Item Token BackendError build fetch ctx fuel opts keyEx w e Hkey Hw He.
  unfold Query, buildQueryInput, queryFilter. rewrite Hkey, Hw, He. reflexivity.
Qed.

Lemma query_filter_failure_sentinel_witness :
  queryKeyCondition (withWhere (Some likeWhere) movieOpts) = ROk (KeyEqual "year" (Some (GoInt 2020)))
  /\ Query buildOk threePages (fun _ => false) 10 (withWhere (Some likeWhere) movieOpts)
     = Some ([], Some DynamoDBErrBuildFilterExpression, []).
Proof.
  split; [reflexivity|].
  exact (query_filter_failure_sentinel nat nat string buildOk threePages (fun _ => false) 10
           (withWhere (Some likeWhere) movieOpts) _ likeWhere _ eq_refl eq_refl eq_refl).
Defined.

(** C6 (combining siblings), counterexample: leaf conditions are collected
    before nested groups, so the spec's example compiles to
    [C AND (A OR B)], not to [(A OR B) AND C]. *)
Lemma groupedWhere_leaf_first :
  buildFilterExpression groupedWhere
    = ROk (CondAnd (CondGreaterThan "rating" (Some (GoInt 7)))
             (CondOr (CondEqual "genre" (Some (GoString "Comedy")))
                     (CondEqual "genre" (Some (GoString "Drama")))))
  /\ buildFilterExpression groupedWhere
     <> ROk (CondAnd (CondOr (CondEqual "genre" (Some (GoString "Comedy")))
                             (CondEqual "genre" (Some (GoString "Drama"))))
                     (CondGreaterThan "rating" (Some (GoInt 7)))).
Proof. split; [reflexivity|]. vm_compute. discriminate. Qed.

(** C6 (combining siblings), as the code has it: the leaf conditions, then
    the nested groups (each compiled on its own), form one sequence that
    is folded from the left with AND when the operator is empty or AND and
    with OR otherwise; the example compiles to [C AND (A OR B)]. *)
Theorem buildFilterExpression_fold_siblings :
  (forall cs gs op leafs nested first rest,
     Forall2 (fun c l => buildSingleCondition c = ROk l) cs leafs ->
     Forall2 (fun g n => buildFilterExpression g = ROk n) gs nested ->
     (leafs ++ nested)%list = first :: rest ->
     buildFilterExpression (Where.mk cs gs op)
     = ROk (fold_left (fun acc c => if String.eqb op "" || String.eqb op AND
                                    then CondAnd acc c else CondOr acc c)
              rest first))
  /\ (forall a b c ca cb cc,
        buildSingleCondition a = ROk ca ->
        buildSingleCondition b = ROk cb ->
        buildSingleCondition c = ROk cc ->
        buildFilterExpression (Where.mk [c] [Where.mk [a; b] [] OR] AND)
        = ROk (CondAnd cc (CondOr ca cb))).
Proof.
  split.
  - intros cs gs op leafs nested first rest Hl Hn Happ.
    rewrite buildFilterExpression_unfold. simpl.
    rewrite (buildConditions_Forall2 _ _ Hl), (buildGroups_Forall2 _ _ Hn), Happ.
    reflexivity.
  - intros a b c ca cb cc Ha Hb Hc.
    rewrite buildFilterExpression_unfold. simpl.
    rewrite Hc, Ha, Hb. reflexivity.
Qed.

Lemma buildFilterExpression_fold_siblings_witness :
  buildFilterExpression (Where.mk [condA; condB; condC] [] OR)
    = ROk (CondOr (CondOr (CondEqual "genre" (Some (GoString "Comedy")))
                          (CondEqual "genre" (Some (GoString "Drama"))))
                  (CondGreaterThan "rating" (Some (GoInt 7))))
  /\ buildFilterExpression groupedWhere
     = ROk (CondAnd (CondGreaterThan "rating" (Some (GoInt 7)))
              (CondOr (CondEqual "genre" (Some (GoString "Comedy")))
                      (CondEqual "genre" (Some (GoString "Drama"))))).
Proof.
  destruct buildFilterExpression_fold_siblings as [H1 H2]. split.
  - apply (H1 [condA; condB; condC] [] OR
             [CondEqual "genre" (Some (GoString "Comedy"));
              CondEqual "genre" (Some (GoString "Drama"));
              CondGreaterThan "rating" (Some (GoInt 7))]
             [] (CondEqual "genre" (Some (GoString "Comedy")))
             [CondEqual "genre" (Some (GoString "Drama"));
              CondGreaterThan "rating" (Some (GoInt 7))]);
      [repeat constructor | constructor | reflexivity].
  - apply H2; reflexivity.
Defined.

(** C7 (validation order): [Table], then [Index], then [Partition] are
    checked, each failure returning its sentinel error with nil items and
    before any page request. *)
Theorem query_validation_order :
  forall (Item Token BackendError : Type) build
    (fetch : nat -> bool -> QueryInput.t Token -> FetchResult Item Token BackendError)
    ctx fuel opts,
    (QueryOptions.Table opts = "" ->
       Query build fetch ctx fuel opts = Some ([], Some DynamoDBErrTableNotSet, []))
    /\ (QueryOptions.Table opts <> "" -> QueryOptions.Index opts = "" ->
          Query build fetch ctx fuel opts = Some ([], Some DynamoDBErrIndexNotSet, []))
    /\ (QueryOptions.Table opts <> "" -> QueryOptions.Index opts <> "" ->
          (QueryOptions.Partition opts = None
           \/ exists p, QueryOptions.Partition opts = Some p
                        /\ (QueryKeyValue.Key p = "" \/ QueryKeyValue.Value p = None)) ->
          Query build fetch ctx fuel opts = Some ([], Some DynamoDBErrPartitionNotSet, [])).
Proof.
  intros Item Token BackendError build fetch ctx fuel opts.
  repeat split.
  - intros Ht. apply query_validation_error.
    unfold queryKeyCondition. rewrite Ht. reflexivity.
  - intros Ht Hi. apply query_validation_error.
    unfold queryKeyCondition.
    apply String.eqb_neq in Ht. rewrite Ht, Hi. reflexivity.
  - intros Ht Hi Hp. apply query_validation_error.
    unfold queryKeyCondition.
    apply String.eqb_neq in Ht. apply String.eqb_neq in Hi. rewrite Ht, Hi.
    destruct Hp as [-> | [p [-> [Hk | Hv]]]]; [reflexivity| |].
    + rewrite Hk. reflexivity.
    + rewrite Hv, orb_true_r. reflexivity.
Qed.

Lemma query_validation_order_witness :
  Query buildOk threePages (fun _ => false) 10
    (QueryOptions.mk "" "YearGenreIndex" 25 "" (Some yearKey) None None)
    = Some ([], Some DynamoDBErrTableNotSet, [])
  /\ Query buildOk threePages (fun _ => false) 10
       (QueryOptions.mk "movies" "" 25 "" (Some yearKey) None None)
     = Some ([], Some DynamoDBErrIndexNotSet, [])
  /\ Query buildOk threePages (fun _ => false) 10
       (QueryOptions.mk "movies" "YearGenreIndex" 25 ""
          (Some (QueryKeyValue.mk "year" None "")) None None)
     = Some ([], Some DynamoDBErrPartitionNotSet, []).
Proof.
  split; [|split].
  - apply (proj1 (query_validation_order nat nat string buildOk threePages (fun _ => false) 10
                    (QueryOptions.mk "" "YearGenreIndex" 25 "" (Some yearKey) None None))).
    reflexivity.
  - apply (proj1 (proj2 (query_validation_order nat nat string buildOk threePages
                           (fun _ => false) 10
                           (QueryOptions.mk "movies" "" 25 "" (Some yearKey) None None))));
      [discriminate | reflexivity].
  - apply (proj2 (proj2 (query_validation_order nat nat string buildOk threePages
                           (fun _ => false) 10
                           (QueryOptions.mk "movies" "YearGenreIndex" 25 ""
                              (Some (QueryKeyValue.mk "year" None "")) None None))));
      [discriminate | discriminate |].
    right. eexists. split; [reflexivity|]. right. reflexivity.
Defined.

(** C8 (fetch failures): a page request whose fetch failed is the last
    request [Query] makes, and [Query] then returns [DynamoDBErrQuery] with
    nil items, whatever earlier pages had accumulated. *)
Theorem query_fetch_failure_discards :
  forall (Item Token BackendError : Type) build
    (fetch : nat -> bool -> QueryInput.t Token -> FetchResult Item Token BackendError)
    ctx fuel opts items err fetched i req,
    Query build fetch ctx fuel opts = Some (items, err, fetched) ->
    nth_error fetched i = Some req ->
    isFetchErr (fetch i (ctx i) req) = true ->
    items = [] /\ err = Some DynamoDBErrQuery /\ S i = length fetched.
Proof.
  intros Item Token BackendError build fetch ctx fuel opts items err fetched i req.
  apply Query_failed_fetch_last.
Qed.

Lemma query_fetch_failure_discards_witness :
  Query buildOk failingSecond (fun _ => false) 10 movieOpts
    = Some ([], Some DynamoDBErrQuery, [movieReq None; movieReq (Some 1)])
  /\ ([] : list nat) = [] /\ Some DynamoDBErrQuery = Some DynamoDBErrQuery
  /\ 2 = length [movieReq None; movieReq (Some 1)].
Proof.
  assert (Hrun : Query buildOk failingSecond (fun _ => false) 10 movieOpts
                 = Some ([], Some DynamoDBErrQuery, [movieReq None; movieReq (Some 1)]))
    by (vm_compute; reflexivity).
  split; [exact Hrun|].
  exact (query_fetch_failure_discards nat nat string buildOk failingSecond (fun _ => false)
           10 movieOpts _ _ _ 1 (movieReq (Some 1)) Hrun eq_refl eq_refl).
Defined.

(** C9 (incomplete sort key): a [Sort] with an empty [Key] or a nil
    [Value] is ignored: [Query] behaves as with no [Sort] at all, whatever
    [Sort.Operator] is, and the key condition is the partition equality. *)
Theorem query_incomplete_sort_ignored :
  forall (Item Token BackendError : Type) build
    (fetch : nat -> bool -> QueryInput.t Token -> FetchResult Item Token BackendError)
    ctx fuel opts kv,
    QueryOptions.Sort opts = Some kv ->
    (QueryKeyValue.Key kv = "" \/ QueryKeyValue.Value kv = None) ->
    Query build fetch ctx fuel opts = Query build fetch ctx fuel (withSort None opts)
    /\ forall p,
         QueryOptions.Table opts <> "" -> QueryOptions.Index opts <> "" ->
         QueryOptions.Partition opts = Some p ->
         QueryKeyValue.Key p <> "" -> QueryKeyValue.Value p <> None ->
         queryKeyCondition opts = ROk (KeyEqual (QueryKeyValue.Key p) (QueryKeyValue.Value p)).
Proof.
  intros Item Token BackendError build fetch ctx fuel opts kv Hs Hkv.
  assert (Hskip : negb (String.eqb (QueryKeyValue.Key kv) "")
                  && isSome (QueryKeyValue.Value kv) = false).
  { destruct Hkv as [-> | ->]; [reflexivity | apply andb_false_r]. }
  assert (Hkey : queryKeyCondition opts = queryKeyCondition (withSort None opts)).
  { destruct opts as [t i l c part s w]; simpl in Hs; subst s.
    unfold queryKeyCondition, withSort; simpl.
    destruct (String.eqb t ""); [reflexivity|].
    destruct (String.eqb i ""); [reflexivity|].
    destruct part as [p|]; [|reflexivity].
    destruct (_ || _); [reflexivity|].
    rewrite Hskip. reflexivity. }
  split.
  - unfold Query, buildQueryInput. rewrite Hkey. destruct opts; reflexivity.
  - intros p Ht Hi Hp Hk Hv. rewrite Hkey.
    destruct opts as [t i l c part s w]; simpl in *; subst part.
    unfold queryKeyCondition, withSort; simpl.
    apply String.eqb_neq in Ht. apply String.eqb_neq in Hi. apply String.eqb_neq in Hk.
    rewrite Ht, Hi, Hk.
    destruct (QueryKeyValue.Value p); [reflexivity | congruence].
Qed.

Lemma query_incomplete_sort_ignored_witness :
  Query buildOk threePages (fun _ => false) 10
    (withSort (Some (QueryKeyValue.mk "genre" None "BEGINS_WITH")) movieOpts)
  = Query buildOk threePages (fun _ => false) 10
      (withSort None (withSort (Some (QueryKeyValue.mk "genre" None "BEGINS_WITH")) movieOpts))
  /\ queryKeyCondition (withSort (Some (QueryKeyValue.mk "" (Some (GoString "Comedy")) "BEGINS_WITH")) movieOpts)
     = ROk (KeyEqual "year" (Some (GoInt 2020))).
Proof.
  split.
  - apply (query_incomplete_sort_ignored nat nat string buildOk threePages (fun _ => false) 10
             _ (QueryKeyValue.mk "genre" None "BEGINS_WITH")); [reflexivity | right; reflexivity].
  - apply (proj2 (query_incomplete_sort_ignored nat nat string buildOk threePages
                    (fun _ => false) 10
                    (withSort (Some (QueryKeyValue.mk "" (Some (GoString "Comedy")) "BEGINS_WITH"))
                       movieOpts)
                    (QueryKeyValue.mk "" (Some (GoString "Comedy")) "BEGINS_WITH")
                    eq_refl (or_introl eq_refl)) yearKey);
      [discriminate | discriminate | reflexivity | discriminate | discriminate].
Defined.

(** C10 (logical operators): any operator other than "" and "AND" folds
    the siblings exactly as "OR" does, and whether compilation fails, and
    with which error, never depends on the operator. *)
Theorem buildFilterExpression_unknown_operator_is_OR :
  forall cs gs op,
    op <> "" -> op <> AND ->
    buildFilterExpression (Where.mk cs gs op) = buildFilterExpression (Where.mk cs gs OR)
    /\ forall op' e,
         buildFilterExpression (Where.mk cs gs op) = RErr e ->
         buildFilterExpression (Where.mk cs gs op') = RErr e.
Proof.
  intros cs gs op H1 H2. split.
  - rewrite !buildFilterExpression_unfold. simpl.
    rewrite (combine_other op H1 H2). reflexivity.
  - intros op' e. rewrite !buildFilterExpression_unfold. simpl.
    destruct (buildConditions cs); [|trivial].
    destruct (buildGroups gs); [|trivial].
    destruct (_ ++ _)%list; [trivial | discriminate].
Qed.

Lemma buildFilterExpression_unknown_operator_is_OR_witness :
  buildFilterExpression (Where.mk [condA; condB] [] "XOR")
    = buildFilterExpression (Where.mk [condA; condB] [] OR)
  /\ buildFilterExpression (Where.mk [condA; condB] [] "XOR")
     = ROk (CondOr (CondEqual "genre" (Some (GoString "Comedy")))
                   (CondEqual "genre" (Some (GoString "Drama")))).
Proof.
  split.
  - apply (buildFilterExpression_unknown_operator_is_OR [condA; condB] [] "XOR");
      discriminate.
  - reflexivity.
Defined.

(** ** Further properties: the leaf compiler *)

(** Case analysis of the operator switch of [buildSingleCondition]. *)
Ltac operator_cases op :=
  unfold buildSingleCondition; simpl;
  repeat match goal with
         | |- context [String.eqb op ?k] =>
             destruct (String.eqb_spec op k) as [->|?]; simpl
         end.

(** A leaf condition compiles exactly when its operator is one of the
    twelve known ones and, for IN, [Values] is non-empty. *)
Theorem buildSingleCondition_ok_iff :
  forall cond,
    (exists c, buildSingleCondition cond = ROk c) <->
    (List.In (WhereCondition.Operator cond) knownOperators
     /\ (WhereCondition.Operator cond <> In \/ WhereCondition.Values cond <> [])).
Proof.
  intros [f op v v2 vs]. simpl.
  operator_cases op;
    try solve [split; [intros _; split; [simpl; tauto | left; discriminate]
                      | intros _; eexists; reflexivity]].
  - destruct vs as [|x xs]; split.
    + intros [c Hc]; discriminate.
    + intros [_ [H | H]]; congruence.
    + intros _. split; [simpl; tauto | right; discriminate].
    + intros _. eexists; reflexivity.
  - split.
    + intros [c Hc]; discriminate.
    + intros [Hin _]. simpl in Hin. intuition congruence.
Qed.

Lemma buildSingleCondition_ok_iff_witness :
  (exists c, buildSingleCondition condA = ROk c)
  /\ ~ (exists c, buildSingleCondition (WhereCondition.mk "tags" In None None []) = ROk c).
Proof.
  split.
  - apply buildSingleCondition_ok_iff. split; [simpl; tauto | left; discriminate].
  - rewrite buildSingleCondition_ok_iff. simpl. intros [_ [H | H]]; congruence.
Defined.

(** The errors of the leaf compiler: an IN condition with no [Values]
    fails with the IN error, and an operator outside the twelve fails
    with the unsupported-operator error naming it. *)
Theorem buildSingleCondition_errors :
  forall cond e,
    buildSingleCondition cond = RErr e ->
    (WhereCondition.Operator cond = In /\ WhereCondition.Values cond = []
     /\ e = ErrInRequiresValues)
    \/ (~ List.In (WhereCondition.Operator cond) knownOperators
        /\ e = ErrUnsupportedOperator (WhereCondition.Operator cond)).
Proof.
  intros [f op v v2 vs] e. simpl.
  operator_cases op; try discriminate.
  - destruct vs; [|discriminate]. intros H; injection H as <-. left; auto.
  - intros H; injection H as <-. right. split; [|reflexivity].
    simpl. intuition congruence.
Qed.

Lemma buildSingleCondition_errors_witness :
  ~ List.In "LIKE" knownOperators /\ ErrUnsupportedOperator "LIKE" = ErrUnsupportedOperator "LIKE".
Proof.
  destruct (buildSingleCondition_errors
              (WhereCondition.mk "title" "LIKE" (Some (GoString "War%")) None [])
              (ErrUnsupportedOperator "LIKE") eq_refl) as [[H _] | H];
    [discriminate | exact H].
Defined.





(** ** Further properties: the Where compiler *)


Lemma buildGroups_app_err gs1 g gs2 nested e :
  buildGroups gs1 = ROk nested ->
  buildFilterExpression g = RErr e ->
  buildGroups (gs1 ++ g :: gs2) = RErr e.
Proof.
  revert nested. induction gs1 as [|g1 gs1 IH]; intros nested H1 Hg; simpl.
  - rewrite Hg. reflexivity.
  - simpl in H1. destruct (buildFilterExpression g1); [|discriminate].
    destruct (buildGroups gs1) as [n|]; [|discriminate].
    rewrite (IH n eq_refl Hg). reflexivity.
Qed.







(** A nested group that fails makes the whole clause fail with the same
    error, once the leaf conditions and the groups before it compile; in
    particular an empty group anywhere fails the clause with the
    no-conditions error, even next to valid conditions. *)
Theorem buildFilterExpression_group_error_propagates :
  forall cs gs1 g gs2 op leafs nested e,
    buildConditions cs = ROk leafs ->
    buildGroups gs1 = ROk nested ->
    buildFilterExpression g = RErr e ->
    buildFilterExpression (Where.mk cs (gs1 ++ g :: gs2) op) = RErr e
    /\ (g = Where.mk [] [] (Where.Operator g) -> e = ErrNoConditions).
Proof.
  intros cs gs1 g gs2 op leafs nested e Hc Hg1 Hg. split.
  - rewrite buildFilterExpression_unfold. simpl. rewrite Hc.
    rewrite (buildGroups_app_err _ _ _ _ _ Hg1 Hg). reflexivity.
  - intros Heq. rewrite Heq in Hg. simpl in Hg. congruence.
Qed.

Lemma buildFilterExpression_group_error_propagates_witness :
  buildFilterExpression (Where.mk [condA] [Where.mk [condB] [] OR; Where.mk [] [] AND] AND)
  = RErr ErrNoConditions.
Proof.
  apply (proj1 (buildFilterExpression_group_error_propagates
                  [condA] [Where.mk [condB] [] OR] (Where.mk [] [] AND) [] AND
                  [CondEqual "genre" (Some (GoString "Comedy"))]
                  [CondEqual "genre" (Some (GoString "Drama"))]
                  ErrNoConditions eq_refl eq_refl eq_refl)).
Defined.



(** ** Further properties: pagination *)

Section RunFacts.
Context {Item Token BackendError : Type}.
Variable fetch : nat -> bool -> QueryInput.t Token -> FetchResult Item Token BackendError.
Variable ctx : nat -> bool.

(** Every request of the loop is the paginator's input with its start key
    and its page limit. *)
Lemma paginate_requests_shape (fuel : nat) :
  forall p k items fetched items' err fetched',
    paginate fetch ctx fuel p k items fetched = Some (items', err, fetched') ->
    exists suffix,
      fetched' = (fetched ++ suffix)%list /\
      Forall (fun r =>
        QueryInput.TableName r = QueryInput.TableName (QueryPaginator.params p)
        /\ QueryInput.IndexName r = QueryInput.IndexName (QueryPaginator.params p)
        /\ QueryInput.KeyConditionExpression r
           = QueryInput.KeyConditionExpression (QueryPaginator.params p)
        /\ QueryInput.FilterExpression r = QueryInput.FilterExpression (QueryPaginator.params p)
        /\ QueryInput.Limit r
           = (if (0 <? QueryPaginator.limit p)%Z then Some (QueryPaginator.limit p) else None))
        suffix.
Proof.
  induction fuel as [|fuel IH]; intros p k items fetched items' err fetched' Hrun;
    simpl in Hrun; [discriminate|].
  destruct (QueryPaginator.HasMorePages p).
  - destruct (fetch k (ctx k) (QueryPaginator.pageParams p)) as [page lek|be].
    + destruct (IH _ _ _ _ _ _ _ Hrun) as [suffix [Heq Hall]].
      exists (QueryPaginator.pageParams p :: suffix). split.
      * rewrite Heq, <- app_assoc. reflexivity.
      * constructor; [repeat split|exact Hall].
    + injection Hrun as <- <- <-. exists [QueryPaginator.pageParams p].
      split; [reflexivity|]. repeat constructor.
  - injection Hrun as <- <- <-. exists []. split; [symmetry; apply app_nil_r | constructor].
Qed.

(** A loop that ends in an error ends with [DynamoDBErrQuery], nil items,
    and after at least one request. *)
Lemma paginate_error (fuel : nat) :
  forall p k items fetched items' e fetched',
    paginate fetch ctx fuel p k items fetched = Some (items', Some e, fetched') ->
    e = DynamoDBErrQuery /\ items' = []
    /\ exists suffix, suffix <> [] /\ fetched' = (fetched ++ suffix)%list.
Proof.
  induction fuel as [|fuel IH]; intros p k items fetched items' e fetched' Hrun;
    simpl in Hrun; [discriminate|].
  destruct (QueryPaginator.HasMorePages p); [|discriminate].
  destruct (fetch k (ctx k) (QueryPaginator.pageParams p)) as [page lek|be].
  - destruct (IH _ _ _ _ _ _ _ Hrun) as [He [Hi [suffix [Hne Heq]]]].
    split; [exact He|]. split; [exact Hi|].
    exists (QueryPaginator.pageParams p :: suffix). split; [discriminate|].
    rewrite Heq, <- app_assoc. reflexivity.
  - injection Hrun as <- <- <-. split; [reflexivity|]. split; [reflexivity|].
    exists [QueryPaginator.pageParams p]. split; [discriminate|reflexivity].
Qed.

(** A loop that ends without error: the items are the accumulated ones
    followed by every page's items in request order; every fetch
    succeeded; the first request starts at the paginator's token, each
    later one at the previous page's (non-nil) [LastEvaluatedKey]; the last
    page had none. *)
Lemma paginate_success (fuel : nat) :
  forall p k items fetched items' fetched',
    paginate fetch ctx fuel p k items fetched = Some (items', None, fetched') ->
    exists suffix,
      fetched' = (fetched ++ suffix)%list
      /\ items' = (items ++ itemsFrom fetch ctx k suffix)%list
      /\ (QueryPaginator.HasMorePages p = true <-> suffix <> [])
      /\ (forall j r, nth_error suffix j = Some r ->
            isFetchErr (fetch (k + j) (ctx (k + j)) r) = false)
      /\ (forall r, nth_error suffix 0 = Some r ->
            QueryInput.ExclusiveStartKey r = QueryPaginator.nextToken p)
      /\ (forall j r r', nth_error suffix j = Some r -> nth_error suffix (S j) = Some r' ->
            QueryInput.ExclusiveStartKey r' = pageKey (fetch (k + j) (ctx (k + j)) r)
            /\ QueryInput.ExclusiveStartKey r' <> None)
      /\ (forall j r, nth_error suffix j = Some r -> S j = length suffix ->
            pageKey (fetch (k + j) (ctx (k + j)) r) = None).
Proof.
  induction fuel as [|fuel IH]; intros p k items fetched items' fetched' Hrun;
    simpl in Hrun; [discriminate|].
  destruct (QueryPaginator.HasMorePages p) eqn:Hmore.
  - destruct (fetch k (ctx k) (QueryPaginator.pageParams p)) as [page lek|be] eqn:Hf;
      [|discriminate].
    destruct (IH _ _ _ _ _ _ Hrun)
      as [suffix [Hfe [Hit [Hne [Hok [Hfirst [Hchain Hlast]]]]]]].
    assert (Hmore' : QueryPaginator.HasMorePages (QueryPaginator.afterPage p lek)
                     = isSome lek) by reflexivity.
    exists (QueryPaginator.pageParams p :: suffix).
    split; [rewrite Hfe, <- app_assoc; reflexivity|].
    split; [rewrite Hit, <- app_assoc; simpl; rewrite Hf; reflexivity|].
    split; [split; [discriminate | reflexivity]|].
    split.
    { intros [|j] r Hnth.
      - simpl in Hnth. injection Hnth as <-. rewrite Nat.add_0_r, Hf. reflexivity.
      - simpl in Hnth. rewrite Nat.add_succ_r. exact (Hok j r Hnth). }
    split; [intros r Hnth; simpl in Hnth; injection Hnth as <-; reflexivity|].
    split.
    { intros [|j] r r' Hnth Hnth'.
      - simpl in Hnth, Hnth'. injection Hnth as <-.
        rewrite (Hfirst r' Hnth'), Nat.add_0_r, Hf. simpl. split; [reflexivity|].
        assert (Hs : suffix <> []) by (intros ->; discriminate).
        apply Hne in Hs. rewrite Hmore' in Hs. destruct lek; [discriminate|discriminate].
      - simpl in Hnth, Hnth'. rewrite Nat.add_succ_r. exact (Hchain j r r' Hnth Hnth'). }
    { intros [|j] r Hnth Hlen.
      - simpl in Hnth, Hlen. injection Hnth as <-. injection Hlen as Hlen.
        destruct suffix; [|discriminate].
        rewrite Nat.add_0_r, Hf. simpl.
        destruct (QueryPaginator.HasMorePages (QueryPaginator.afterPage p lek)) eqn:Hm.
        + exfalso. apply (proj1 Hne eq_refl). reflexivity.
        + rewrite Hmore' in Hm. destruct lek; [discriminate|reflexivity].
      - simpl in Hnth, Hlen. injection Hlen as Hlen. rewrite Nat.add_succ_r.
        exact (Hlast j r Hnth Hlen). }
  - injection Hrun as <- <-. exists [].
    split; [symmetry; apply app_nil_r|]. split; [symmetry; apply app_nil_r|].
    split; [split; [discriminate | intros H; exfalso; apply H; reflexivity]|].
    split; [intros j r H; destruct j; discriminate|].
    split; [intros r H; discriminate|].
    split; [intros j r r' H; destruct j; discriminate|].
    intros j r H; destruct j; discriminate.
Qed.
End RunFacts.

Lemma buildQueryInput_parts {Token : Type} build opts (input : QueryInput.t Token) :
  buildQueryInput build opts = ROk input ->
  exists kc f,
    queryKeyCondition opts = ROk kc /\ queryFilter opts = ROk f /\ build kc f = None
    /\ input = QueryInput.mk (QueryOptions.Table opts) (QueryOptions.Index opts) kc f
                 (Some (QueryOptions.Limit opts)) None.
Proof.
  unfold buildQueryInput.
  destruct (queryKeyCondition opts) as [kc|]; [|discriminate].
  destruct (queryFilter opts) as [f|]; [|discriminate].
  destruct (build kc f) eqn:Hb; [discriminate|].
  intros H. injection H as <-. exists kc, f. auto.
Qed.

Lemma buildQueryInput_not_query_error {Token : Type} build opts :
  @buildQueryInput Token build opts <> RErr DynamoDBErrQuery.
Proof.
  unfold buildQueryInput, queryKeyCondition, queryFilter.
  destruct (String.eqb _ ""); [discriminate|].
  destruct (String.eqb _ ""); [discriminate|].
  destruct (QueryOptions.Partition opts) as [p|]; [|discriminate].
  destruct (_ || _); [discriminate|].
  destruct (QueryOptions.Sort opts) as [s|].
  1: destruct (_ && _); [destruct (String.eqb _ Equal)|]; try discriminate.
  all: destruct (QueryOptions.Where opts) as [w|];
       [destruct (buildFilterExpression w)|]; try discriminate;
       destruct (build _ _); discriminate.
Qed.

(** A [Query] that succeeds has made at least one page request, every one
    of which succeeded, and returns the items of every page in request
    order, each page's items in the order the backend returned them. *)
Theorem query_success_items_in_page_order :
  forall (Item Token BackendError : Type) build
    (fetch : nat -> bool -> QueryInput.t Token -> FetchResult Item Token BackendError)
    ctx fuel opts items fetched,
    Query build fetch ctx fuel opts = Some (items, None, fetched) ->
    fetched <> []
    /\ items = itemsFrom fetch ctx 0 fetched
    /\ (forall i r, nth_error fetched i = Some r -> isFetchErr (fetch i (ctx i) r) = false).
Proof.
  intros Item Token BackendError build fetch ctx fuel opts items fetched Hrun.
  unfold Query in Hrun.
  destruct (buildQueryInput build opts) as [input|e]; [|discriminate].
  destruct (paginate_success fetch ctx _ _ _ _ _ _ _ Hrun)
    as [suffix [Hfe [Hit [Hne [Hok _]]]]].
  simpl in Hfe, Hit. subst.
  split; [apply Hne; reflexivity|]. split; [reflexivity|]. exact Hok.
Qed.

Lemma query_success_items_in_page_order_witness :
  [movieReq None; movieReq (Some 1); movieReq (Some 2)] <> []
  /\ [1; 2; 3; 4; 5; 6; 7; 8]
     = itemsFrom threePages (fun _ => false) 0
         [movieReq None; movieReq (Some 1); movieReq (Some 2)].
Proof.
  assert (Hrun : Query buildOk threePages (fun _ => false) 10 movieOpts
                 = Some ([1; 2; 3; 4; 5; 6; 7; 8], None,
                         [movieReq None; movieReq (Some 1); movieReq (Some 2)]))
    by (vm_compute; reflexivity).
  destruct (query_success_items_in_page_order nat nat string buildOk threePages
              (fun _ => false) 10 movieOpts _ _ Hrun) as [H1 [H2 _]].
  split; [exact H1 | exact H2].
Defined.

(** In a successful [Query] the continuation token is threaded through:
    the first request has no start key (whatever [opts.Cursor] is), each
    later request starts at the previous page's [LastEvaluatedKey], which
    was non-nil, and the loop stops after the first page that has none. *)
Theorem query_continuation_chain :
  forall (Item Token BackendError : Type) build
    (fetch : nat -> bool -> QueryInput.t Token -> FetchResult Item Token BackendError)
    ctx fuel opts items fetched,
    Query build fetch ctx fuel opts = Some (items, None, fetched) ->
    (forall r, nth_error fetched 0 = Some r -> QueryInput.ExclusiveStartKey r = None)
    /\ (forall i r r', nth_error fetched i = Some r -> nth_error fetched (S i) = Some r' ->
          QueryInput.ExclusiveStartKey r' = pageKey (fetch i (ctx i) r)
          /\ QueryInput.ExclusiveStartKey r' <> None)
    /\ (forall i r, nth_error fetched i = Some r -> S i = length fetched ->
          pageKey (fetch i (ctx i) r) = None).
Proof.
  intros Item Token BackendError build fetch ctx fuel opts items fetched Hrun.
  unfold Query in Hrun.
  destruct (buildQueryInput build opts) as [input|e] eqn:Hin; [|discriminate].
  destruct (buildQueryInput_parts _ _ _ Hin) as [kc [f [_ [_ [_ ->]]]]].
  destruct (paginate_success fetch ctx _ _ _ _ _ _ _ Hrun)
    as [suffix [Hfe [_ [_ [_ [Hfirst [Hchain Hlast]]]]]]].
  simpl in Hfe. subst fetched.
  split; [exact Hfirst|]. split; [exact Hchain | exact Hlast].
Qed.

Lemma query_continuation_chain_witness :
  QueryInput.ExclusiveStartKey (movieReq (Some 2))
    = pageKey (threePages 1 false (movieReq (Some 1)))
  /\ pageKey (threePages 2 false (movieReq (Some 2))) = None.
Proof.
  assert (Hrun : Query buildOk threePages (fun _ => false) 10 movieOpts
                 = Some ([1; 2; 3; 4; 5; 6; 7; 8], None,
                         [movieReq None; movieReq (Some 1); movieReq (Some 2)]))
    by (vm_compute; reflexivity).
  destruct (query_continuation_chain nat nat string buildOk threePages
              (fun _ => false) 10 movieOpts _ _ Hrun) as [_ [Hc Hl]].
  split; [exact (proj1 (Hc 1 _ _ eq_refl eq_refl)) | exact (Hl 2 _ eq_refl eq_refl)].
Defined.

(** Every page request [Query] makes names [opts.Table] and [opts.Index]
    and carries the key condition and the (possibly absent) filter built
    from [opts]; it carries [opts.Limit] as page limit only when it is
    positive, and no limit when it is zero or negative. *)
Theorem query_requests_carry_options :
  forall (Item Token BackendError : Type) build
    (fetch : nat -> bool -> QueryInput.t Token -> FetchResult Item Token BackendError)
    ctx fuel opts items err fetched r,
    Query build fetch ctx fuel opts = Some (items, err, fetched) ->
    List.In r fetched ->
    exists kc f,
      queryKeyCondition opts = ROk kc /\ queryFilter opts = ROk f
      /\ QueryInput.TableName r = QueryOptions.Table opts
      /\ QueryInput.IndexName r = QueryOptions.Index opts
      /\ QueryInput.KeyConditionExpression r = kc
      /\ QueryInput.FilterExpression r = f
      /\ QueryInput.Limit r
         = (if (0 <? QueryOptions.Limit opts)%Z then Some (QueryOptions.Limit opts) else None).
Proof.
  intros Item Token BackendError build fetch ctx fuel opts items err fetched r Hrun Hr.
  unfold Query in Hrun.
  destruct (buildQueryInput build opts) as [input|e] eqn:Hin.
  - destruct (buildQueryInput_parts _ _ _ Hin) as [kc [f [Hkc [Hf [_ ->]]]]].
    destruct (paginate_requests_shape fetch ctx _ _ _ _ _ _ _ _ Hrun) as [suffix [Hfe Hall]].
    simpl in Hfe. subst fetched.
    rewrite Forall_forall in Hall. destruct (Hall r Hr) as [H1 [H2 [H3 [H4 H5]]]].
    exists kc, f. simpl in *. auto 7.
  - injection Hrun as _ _ <-. destruct Hr.
Qed.

Lemma query_requests_carry_options_witness :
  QueryInput.Limit (movieReq None) = Some 25%Z
  /\ QueryInput.FilterExpression (movieReq None) = None.
Proof.
  assert (Hrun : Query buildOk threePages (fun _ => false) 10 movieOpts
                 = Some ([1; 2; 3; 4; 5; 6; 7; 8], None,
                         [movieReq None; movieReq (Some 1); movieReq (Some 2)]))
    by (vm_compute; reflexivity).
  destruct (query_requests_carry_options nat nat string buildOk threePages
              (fun _ => false) 10 movieOpts _ _ _ (movieReq None) Hrun (or_introl eq_refl))
    as [kc [f [_ [Hf [_ [_ [_ [Hfe Hl]]]]]]]].
  split; [exact Hl|]. rewrite Hfe. vm_compute in Hf. injection Hf as <-. reflexivity.
Defined.

(** Every failing [Query] returns nil items; an error returned before any
    page request is never [DynamoDBErrQuery], and an error returned after
    a page request always is. *)
Theorem query_error_stage :
  forall (Item Token BackendError : Type) build
    (fetch : nat -> bool -> QueryInput.t Token -> FetchResult Item Token BackendError)
    ctx fuel opts items e fetched,
    Query build fetch ctx fuel opts = Some (items, Some e, fetched) ->
    items = []
    /\ ((fetched = [] /\ e <> DynamoDBErrQuery)
        \/ (fetched <> [] /\ e = DynamoDBErrQuery)).
Proof.
  intros Item Token BackendError build fetch ctx fuel opts items e fetched Hrun.
  unfold Query in Hrun.
  destruct (buildQueryInput build opts) as [input|e'] eqn:Hin.
  - destruct (paginate_error fetch ctx _ _ _ _ _ _ _ _ Hrun) as [He [Hi [suffix [Hne Hfe]]]].
    simpl in Hfe. subst. split; [reflexivity|]. right. split; [exact Hne | reflexivity].
  - injection Hrun as <- <- <-. split; [reflexivity|]. left. split; [reflexivity|].
    intros ->. exact (buildQueryInput_not_query_error build opts Hin).
Qed.

Lemma query_error_stage_witness :
  ([] : list nat) = []
  /\ (([movieReq None; movieReq (Some 1)] = [] /\ DynamoDBErrQuery <> DynamoDBErrQuery)
      \/ ([movieReq None; movieReq (Some 1)] <> [] /\ DynamoDBErrQuery = DynamoDBErrQuery)).
Proof.
  apply (query_error_stage nat nat string buildOk failingSecond (fun _ => false) 10 movieOpts).
  vm_compute. reflexivity.
Defined.

(** A sort key with both [Key] and [Value] set is added to the key
    condition with AND when its operator is [Equal]; with any other
    operator [Query] fails with the unsupported-sort-key error naming it,
    with nil items and before any page request. *)
Theorem query_complete_sort_key :
  forall (Item Token BackendError : Type) build
    (fetch : nat -> bool -> QueryInput.t Token -> FetchResult Item Token BackendError)
    ctx fuel opts p s,
    QueryOptions.Table opts <> "" -> QueryOptions.Index opts <> "" ->
    QueryOptions.Partition opts = Some p ->
    QueryKeyValue.Key p <> "" -> QueryKeyValue.Value p <> None ->
    QueryOptions.Sort opts = Some s ->
    QueryKeyValue.Key s <> "" -> QueryKeyValue.Value s <> None ->
    (QueryKeyValue.Operator s = Equal ->
       queryKeyCondition opts
       = ROk (KeyAnd (KeyEqual (QueryKeyValue.Key p) (QueryKeyValue.Value p))
                     (KeyEqual (QueryKeyValue.Key s) (QueryKeyValue.Value s))))
    /\ (QueryKeyValue.Operator s <> Equal ->
          Query build fetch ctx fuel opts
          = Some ([], Some (ErrUnsupportedSortKeyOperator (QueryKeyValue.Operator s)), [])).
Proof.
  intros Item Token BackendError build fetch ctx fuel opts p s Ht Hi Hp Hpk Hpv Hs Hsk Hsv.
  assert (Hkc : queryKeyCondition opts
                = if String.eqb (QueryKeyValue.Operator s) Equal
                  then ROk (KeyAnd (KeyEqual (QueryKeyValue.Key p) (QueryKeyValue.Value p))
                                   (KeyEqual (QueryKeyValue.Key s) (QueryKeyValue.Value s)))
                  else RErr (ErrUnsupportedSortKeyOperator (QueryKeyValue.Operator s))).
  { unfold queryKeyCondition.
    apply String.eqb_neq in Ht. apply String.eqb_neq in Hi.
    apply String.eqb_neq in Hpk. apply String.eqb_neq in Hsk.
    rewrite Ht, Hi, Hp, Hpk, Hs, Hsk.
    destruct (QueryKeyValue.Value p); [|congruence].
    destruct (QueryKeyValue.Value s); [reflexivity|congruence]. }
  split.
  - intros Heq. rewrite Hkc, Heq. reflexivity.
  - intros Hne. apply query_validation_error. rewrite Hkc.
    apply String.eqb_neq in Hne. rewrite Hne. reflexivity.
Qed.

Lemma query_complete_sort_key_witness :
  Query buildOk threePages (fun _ => false) 10
    (withSort (Some (QueryKeyValue.mk "genre" (Some (GoString "Com")) BeginsWith)) movieOpts)
  = Some ([], Some (ErrUnsupportedSortKeyOperator BeginsWith), []).
Proof.
  apply (proj2 (query_complete_sort_key nat nat string buildOk threePages (fun _ => false) 10
                  (withSort (Some (QueryKeyValue.mk "genre" (Some (GoString "Com")) BeginsWith))
                     movieOpts)
                  yearKey (QueryKeyValue.mk "genre" (Some (GoString "Com")) BeginsWith)
                  ltac:(discriminate) ltac:(discriminate) eq_refl ltac:(discriminate)
                  ltac:(discriminate) eq_refl ltac:(discriminate) ltac:(discriminate))).
  discriminate.
Defined.

(** ** Further properties: configuration *)









